(** * spacesim: tanks, staged-combustion engine and clock

    A shallow embedding of the simulation core of [src/js/app.js]
    (the classes [Compound], [Tank], [Engine], [Temporal] and [Clock]).

    Numbers.  A JavaScript number is modelled by [num]: an exact rational
    ([Qc], canonical fractions, so that equality is Leibniz equality) or one
    of the three special values [+Infinity], [-Infinity] and [NaN], with the
    IEEE-754 rules for the special values (division by zero, absorbing
    [NaN], comparisons with [NaN] false, [Math.min] returning [NaN] as soon
    as one argument is [NaN]).  Rounding, overflow and the sign of zero are
    not modelled: finite arithmetic is exact and zero is [+0].

    Objects.  Tanks are shared mutable objects (two engines are fed from the
    same tanks in [draw]), so they live in a heap ([gmap loc Tank.t]) and an
    engine holds references to them.  Methods are computations in a monad
    which threads the state and in which a thrown exception keeps the state
    as it was at the [throw].

    Arguments.  The [=== null] and [typeof] checks that open the methods
    reject values that are not numbers, booleans or objects of the expected
    class; the types of the model exclude such arguments, so these checks
    have no counterpart here. *)

From Stdlib Require Import QArith Qcanon Lqa Lia List Bool.
From stdpp Require Import gmap list.

Set Default Proof Using "Type".

(* ================================================================== *)
(** * Rationals: boolean comparisons and a bridge to [lra] *)

Definition q_lt (x y : Qc) : bool :=
  match (x ?= y)%Qc with Lt => true | _ => false end.

Definition q_le (x y : Qc) : bool :=
  match (x ?= y)%Qc with Gt => false | _ => true end.

Definition q_eq (x y : Qc) : bool :=
  match (x ?= y)%Qc with Eq => true | _ => false end.

(** Decimal literal [n / d]. *)
Definition dec (n : Z) (d : positive) : Qc := Q2Qc (n # d).

(* ================================================================== *)
(** * JavaScript numbers *)

Inductive num : Type :=
| Fin (q : Qc)
| PInf
| NInf
| NaN.

Declare Scope num_scope.
Delimit Scope num_scope with J.
Bind Scope num_scope with num.

Module Num.

Definition zero : num := Fin 0%Qc.
Definition one : num := Fin 1%Qc.

Definition finite (x : num) : bool :=
  match x with Fin _ => true | _ => false end.

(** The infinity (or [NaN]) that a product or quotient with an infinite
    operand takes from the sign of the finite one. *)
Definition inf_of (c : comparison) : num :=
  match c with Gt => PInf | Lt => NInf | Eq => NaN end.

Definition add (x y : num) : num :=
  match x, y with
  | NaN, _ | _, NaN => NaN
  | Fin a, Fin b => Fin (a + b)%Qc
  | PInf, NInf | NInf, PInf => NaN
  | PInf, _ | _, PInf => PInf
  | NInf, _ | _, NInf => NInf
  end.

Definition sub (x y : num) : num :=
  match x, y with
  | NaN, _ | _, NaN => NaN
  | Fin a, Fin b => Fin (a - b)%Qc
  | PInf, PInf | NInf, NInf => NaN
  | PInf, _ | _, NInf => PInf
  | NInf, _ | _, PInf => NInf
  end.

Definition mul (x y : num) : num :=
  match x, y with
  | NaN, _ | _, NaN => NaN
  | Fin a, Fin b => Fin (a * b)%Qc
  | Fin a, PInf | PInf, Fin a => inf_of (a ?= 0)%Qc
  | Fin a, NInf | NInf, Fin a => inf_of (0 ?= a)%Qc
  | PInf, PInf | NInf, NInf => PInf
  | PInf, NInf | NInf, PInf => NInf
  end.

Definition div (x y : num) : num :=
  match x, y with
  | NaN, _ | _, NaN => NaN
  | Fin a, Fin b =>
      if q_eq b 0 then inf_of (a ?= 0)%Qc else Fin (a / b)%Qc
  | Fin _, (PInf | NInf) => zero
  | (PInf | NInf), (PInf | NInf) => NaN
  | PInf, Fin b => if q_lt b 0 then NInf else PInf
  | NInf, Fin b => if q_lt b 0 then PInf else NInf
  end.

(** [x < y], [x <= y] and [x > y] of JavaScript: false when an operand is
    [NaN]. *)
Definition lt (x y : num) : bool :=
  match x, y with
  | NaN, _ | _, NaN => false
  | Fin a, Fin b => q_lt a b
  | _, NInf => false
  | NInf, _ => true
  | PInf, _ => false
  | _, PInf => true
  end.

Definition le (x y : num) : bool :=
  match x, y with
  | NaN, _ | _, NaN => false
  | Fin a, Fin b => q_le a b
  | NInf, _ => true
  | _, PInf => true
  | _, NInf => false
  | PInf, _ => false
  end.

Definition gt (x y : num) : bool := lt y x.

(** [Math.min(x, y)]. *)
Definition min (x y : num) : num :=
  match x, y with
  | NaN, _ | _, NaN => NaN
  | _, _ => if le x y then x else y
  end.

(** A finite number that is not negative. *)
Definition nonneg (x : num) : bool := finite x && le zero x.


End Num.

Notation "x + y" := (Num.add x y) : num_scope.
Notation "x - y" := (Num.sub x y) : num_scope.
Notation "x * y" := (Num.mul x y) : num_scope.
Notation "x / y" := (Num.div x y) : num_scope.
Notation "x <? y" := (Num.lt x y) : num_scope.
Notation "x <=? y" := (Num.le x y) : num_scope.
Notation "x >? y" := (Num.gt x y) : num_scope.


(** Numeric literals of the source. *)
Definition lit (n : Z) (d : positive) : num := Fin (dec n d).
Definition int (n : Z) : num := Fin (dec n 1).

(* ================================================================== *)
(** * Exceptions and the method monad *)

(** The exception classes the modelled code throws. *)
Inductive error : Type :=
| RangeError
| IllegalStateError
| NoFuelTankConnectedError
| NoOxidizerTankConnectedError
| TypeError.

(** [instanceof NoTankConnectedError]. *)
Definition isNoTankConnectedError (e : error) : bool :=
  match e with
  | NoFuelTankConnectedError | NoOxidizerTankConnectedError => true
  | _ => false
  end.

Inductive res (A : Type) : Type :=
| Ok (a : A)
| Throw (e : error).
Arguments Ok {A} a.
Arguments Throw {A} e.

(** A method body: it runs on a state and ends normally or abruptly; in
    both cases the mutations made so far stay. *)
Definition M (S A : Type) : Type := S -> res A * S.

Definition ret {S A} (a : A) : M S A := fun s => (Ok a, s).

Definition throw {S A} (e : error) : M S A := fun s => (Throw e, s).

Definition bind {S A B} (m : M S A) (k : A -> M S B) : M S B :=
  fun s =>
    match m s with
    | (Ok a, s') => k a s'
    | (Throw e, s') => (Throw e, s')
    end.

Definition get {S} : M S S := fun s => (Ok s, s).
Definition modify {S} (f : S -> S) : M S unit := fun s => (Ok tt, f s).

Notation "'do' x <- m ; k" := (bind m (fun x => k))
  (at level 10, x name, m at level 100, k at level 200,
   format "'[v' 'do'  x  <-  m ; '/' k ']'").

(* ================================================================== *)
(** * Compounds *)

(** The two subclasses of [Compound]. *)
Inductive CompoundClass : Type := Fuel | Oxidizer.

Record Compound : Type := mkCompound {
  class : CompoundClass;
  density : num;       (* kg/ml *)
  meltingPoint : num;  (* degrees C *)
  boilingPoint : num
}.

Module Fuels.
Definition KEROSENE := mkCompound Fuel (lit 749 1000000) (lit (-96) 10) (lit 2163 10).
Definition RP_1 := mkCompound Fuel (lit 820 1000000) NaN (lit 2740 10).
Definition HYDRAZINE := mkCompound Fuel (lit 1004 1000000) (lit 14 10) (lit 1135 10).
Definition METHYL_HYDRAZINE := mkCompound Fuel (lit 866 1000000) (lit (-524) 10) (lit 875 10).
Definition DIMETHYL_HYDRAZINE := mkCompound Fuel (lit 791 1000000) (lit (-580) 10) (lit 639 10).
Definition AEROZINE_50 := mkCompound Fuel (lit 899 1000000) (lit (-73) 10) (lit 700 10).
Definition LIQUID_HYDROGEN := mkCompound Fuel (lit 71 1000000) (lit (-2593) 10) (lit (-2529) 10).
End Fuels.

Module Oxidizers.
Definition LIQUID_OXIGEN := mkCompound Oxidizer (lit 114 100000) (lit (-2188) 10) (lit (-1830) 10).
Definition NITROGEN_TETROXIDE := mkCompound Oxidizer (lit 145 100000) (lit (-93) 10) (lit 2115 100).
End Oxidizers.

(* ================================================================== *)
(** * Tank *)

Module Tank.

Record t : Type := mk {
  _compound : Compound;
  _volumeCapacity : num;  (* millilitres *)
  _massCapacity : num;    (* kilograms *)
  _level : num            (* kilograms *)
}.

(** [new Tank(compound, capacity)] *)
Definition new (compound : Compound) (capacity : num) : t :=
  {| _compound := compound;
     _volumeCapacity := capacity;
     _massCapacity := (capacity * density compound)%J;
     _level := Num.zero |}.

Definition set_level (l : num) (k : t) : t :=
  {| _compound := _compound k;
     _volumeCapacity := _volumeCapacity k;
     _massCapacity := _massCapacity k;
     _level := l |}.

Definition massLevel (k : t) : num := _level k.
Definition level (k : t) : num := (_level k / _massCapacity k)%J.
Definition empty (k : t) : bool := (_level k <=? Num.zero)%J.

(** Each method returns the value of the call and the tank after it. *)
Definition fillVolume (volume : num) (k : t) : num * t :=
  let mass :=
    Num.min (_massCapacity k - _level k)%J (volume * density (_compound k))%J in
  ((mass / density (_compound k))%J, set_level (_level k + mass)%J k).

Definition fillMass (mass : num) (k : t) : num * t :=
  let mass := Num.min (_massCapacity k - _level k)%J mass in
  (mass, set_level (_level k + mass)%J k).

Definition drainVolume (volume : num) (k : t) : num * t :=
  let mass := Num.min (_level k) (volume * density (_compound k))%J in
  ((mass / density (_compound k))%J, set_level (_level k - mass)%J k).

Definition drainMass (mass : num) (k : t) : num * t :=
  let mass := Num.min (_level k) mass in
  (mass, set_level (_level k - mass)%J k).

(** A call of one of the four mutators, and a sequence of such calls
    with the tank after every call. *)
Inductive call : Type :=
| FillVolume (volume : num)
| FillMass (mass : num)
| DrainVolume (volume : num)
| DrainMass (mass : num).


Definition perform (c : call) (k : t) : num * t :=
  match c with
  | FillVolume v => fillVolume v k
  | FillMass m => fillMass m k
  | DrainVolume v => drainVolume v k
  | DrainMass m => drainMass m k
  end.

Fixpoint trace (cs : list call) (k : t) : list t :=
  match cs with
  | [] => []
  | c :: cs' => let k' := snd (perform c k) in k' :: trace cs' k'
  end.

(** The invariant of the specification, [0 <= level <= massCapacity],
    with the comparisons of JavaScript. *)
Definition level_in_range (k : t) : bool :=
  (Num.zero <=? _level k)%J && (_level k <=? _massCapacity k)%J.

(** A request that is a finite number and not negative. *)
Definition request_ok (x : num) : bool := Num.nonneg x.

(** A tank whose capacity, level and density are finite numbers, with
    the level between 0 and the capacity and a density that is not
    negative. *)
Definition well_formed (k : t) : bool :=
  Num.finite (_massCapacity k) && Num.finite (_level k)
  && Num.finite (density (_compound k))
  && level_in_range k && (Num.zero <=? density (_compound k))%J.

End Tank.


(* ================================================================== *)
(** * Engine *)

(** References to tanks.  A tank object is never destroyed, so a
    reference stored by a setter stays valid. *)
Definition loc : Type := positive.

Module Engine.

Record t : Type := mk {
  _thrust : num;                    (* N, in the vacuum *)
  _fuelFlow : num;                  (* kg/s *)
  _oxidizerFlow : num;              (* kg/s *)
  _propellantFlow : num;
  _effectiveExhaustVelocity : num;  (* m/s *)
  _fuelTank : option loc;           (* [None] is [null] *)
  _oxidizerTank : option loc;
  _throttle : num;
  _preburnerIgnition : bool;
  _chamberIgnition : bool;
  _preburnerCombustion : num;
  _chamberCombustion : num
}.

Definition PREBURNER_TAP_OFF : num := lit 5 100.
Definition CHAMBER_TAP_OFF : num := (Num.one - PREBURNER_TAP_OFF)%J.

(** [new Engine(thrust, fuelFlow, oxidizerFlow)] *)
Definition new (thrust fuelFlow oxidizerFlow : num) : t :=
  let propellantFlow := (fuelFlow + oxidizerFlow)%J in
  {| _thrust := thrust;
     _fuelFlow := fuelFlow;
     _oxidizerFlow := oxidizerFlow;
     _propellantFlow := propellantFlow;
     _effectiveExhaustVelocity := (thrust / propellantFlow)%J;
     _fuelTank := None;
     _oxidizerTank := None;
     _throttle := Num.zero;
     _preburnerIgnition := false;
     _chamberIgnition := false;
     _preburnerCombustion := Num.zero;
     _chamberCombustion := Num.zero |}.

(** Field updates. *)
Definition with_fuelTank (v : option loc) (e : t) : t :=
  mk (_thrust e) (_fuelFlow e) (_oxidizerFlow e) (_propellantFlow e)
     (_effectiveExhaustVelocity e) v (_oxidizerTank e) (_throttle e)
     (_preburnerIgnition e) (_chamberIgnition e)
     (_preburnerCombustion e) (_chamberCombustion e).

Definition with_oxidizerTank (v : option loc) (e : t) : t :=
  mk (_thrust e) (_fuelFlow e) (_oxidizerFlow e) (_propellantFlow e)
     (_effectiveExhaustVelocity e) (_fuelTank e) v (_throttle e)
     (_preburnerIgnition e) (_chamberIgnition e)
     (_preburnerCombustion e) (_chamberCombustion e).

Definition with_throttle (v : num) (e : t) : t :=
  mk (_thrust e) (_fuelFlow e) (_oxidizerFlow e) (_propellantFlow e)
     (_effectiveExhaustVelocity e) (_fuelTank e) (_oxidizerTank e) v
     (_preburnerIgnition e) (_chamberIgnition e)
     (_preburnerCombustion e) (_chamberCombustion e).

Definition with_preburnerIgnition (v : bool) (e : t) : t :=
  mk (_thrust e) (_fuelFlow e) (_oxidizerFlow e) (_propellantFlow e)
     (_effectiveExhaustVelocity e) (_fuelTank e) (_oxidizerTank e)
     (_throttle e) v (_chamberIgnition e)
     (_preburnerCombustion e) (_chamberCombustion e).

Definition with_chamberIgnition (v : bool) (e : t) : t :=
  mk (_thrust e) (_fuelFlow e) (_oxidizerFlow e) (_propellantFlow e)
     (_effectiveExhaustVelocity e) (_fuelTank e) (_oxidizerTank e)
     (_throttle e) (_preburnerIgnition e) v
     (_preburnerCombustion e) (_chamberCombustion e).

Definition with_preburnerCombustion (v : num) (e : t) : t :=
  mk (_thrust e) (_fuelFlow e) (_oxidizerFlow e) (_propellantFlow e)
     (_effectiveExhaustVelocity e) (_fuelTank e) (_oxidizerTank e)
     (_throttle e) (_preburnerIgnition e) (_chamberIgnition e)
     v (_chamberCombustion e).

Definition with_chamberCombustion (v : num) (e : t) : t :=
  mk (_thrust e) (_fuelFlow e) (_oxidizerFlow e) (_propellantFlow e)
     (_effectiveExhaustVelocity e) (_fuelTank e) (_oxidizerTank e)
     (_throttle e) (_preburnerIgnition e) (_chamberIgnition e)
     (_preburnerCombustion e) v.

(** The state a method of an engine runs on: the engine itself and the
    heap of tanks it can reach. *)
Record state : Type := mkState {
  self : t;
  tanks : gmap loc Tank.t
}.

Definition update (f : t -> t) : M state unit :=
  modify (fun s => mkState (f (self s)) (tanks s)).

(** A method call on the tank at [l].  The setters only store references
    to tanks, so the [TypeError] branch (a receiver that is no tank) is
    not taken on a reference they stored. *)
Definition on_tank {A} (l : loc) (method : Tank.t -> A * Tank.t) : M state A :=
  fun s =>
    match tanks s !! l with
    | Some k =>
        let (a, k') := method k in
        (Ok a, mkState (self s) (<[l := k']> (tanks s)))
    | None => (Throw TypeError, s)
    end.

(** The setters. *)
Definition set_fuelTank (tank : option loc) : M state unit :=
  match tank with
  | Some l =>
      do k <- on_tank l (fun k => (k, k));
      match class (Tank._compound k) with
      | Fuel => update (with_fuelTank tank)
      | Oxidizer => throw RangeError
      end
  | None => update (with_fuelTank tank)
  end.

Definition set_oxidizerTank (tank : option loc) : M state unit :=
  match tank with
  | Some l =>
      do k <- on_tank l (fun k => (k, k));
      match class (Tank._compound k) with
      | Oxidizer => update (with_oxidizerTank tank)
      | Fuel => throw RangeError
      end
  | None => update (with_oxidizerTank tank)
  end.

Definition set_throttle (level : num) : M state unit :=
  if (level <? Num.zero)%J || (level >? Num.one)%J then throw RangeError
  else update (with_throttle level).

Definition set_preburnerIgnition (active : bool) : M state unit :=
  update (with_preburnerIgnition active).

Definition set_chamberIgnition (active : bool) : M state unit :=
  update (with_chamberIgnition active).

(** The derived read accessors: functions of the engine alone. *)
Definition thrustLevel (e : t) : num :=
  (_preburnerCombustion e * PREBURNER_TAP_OFF
   + _chamberCombustion e * CHAMBER_TAP_OFF)%J.

Definition thrust (e : t) : num := (_thrust e * thrustLevel e)%J.

Definition fuelFlow (e : t) : num :=
  (_fuelFlow e * PREBURNER_TAP_OFF * _preburnerCombustion e
   + _fuelFlow e * CHAMBER_TAP_OFF * _chamberCombustion e)%J.

Definition oxidizerFlow (e : t) : num :=
  (_oxidizerFlow e * PREBURNER_TAP_OFF * _preburnerCombustion e
   + _oxidizerFlow e * CHAMBER_TAP_OFF * _chamberCombustion e)%J.

Definition propellantFlow (e : t) : num :=
  (_propellantFlow e * PREBURNER_TAP_OFF * _preburnerCombustion e
   + _propellantFlow e * CHAMBER_TAP_OFF * _chamberCombustion e)%J.



(** A getter as a method: it reads [self] and returns. *)
Definition read {A} (getter : t -> A) : M state A :=
  do s <- get; ret (getter (self s)).

(** The local constants of a feeding stage ([#preburner], [#pump]); the
    model returns them so that they can be spoken about. *)
Record feed : Type := mkFeed {
  fuelDrained : num;
  oxidizerDrained : num;
  fuelSupply : num;
  oxidizerSupply : num
}.

(** [#preburner(elapsed)] *)
Definition preburner (elapsed : num) : M state feed :=
  do e <- read id;
  match _fuelTank e with
  | None => throw NoFuelTankConnectedError
  | Some fuelTank =>
  match _oxidizerTank e with
  | None => throw NoOxidizerTankConnectedError
  | Some oxidizerTank =>
      let a := (PREBURNER_TAP_OFF * elapsed)%J in
      let b := (a * _throttle e)%J in
      do fuelDrained <- on_tank fuelTank (Tank.drainMass (_fuelFlow e * b)%J);
      do oxidizerDrained <-
        on_tank oxidizerTank (Tank.drainMass (_oxidizerFlow e * b)%J);
      let fuelSupply := (fuelDrained / (_fuelFlow e * a))%J in
      let oxidizerSupply := (oxidizerDrained / (_oxidizerFlow e * a))%J in
      do _ <- update (with_preburnerCombustion
        (if _preburnerIgnition e || (_preburnerCombustion e >? Num.zero)%J
         then Num.min fuelSupply oxidizerSupply else Num.zero));
      ret (mkFeed fuelDrained oxidizerDrained fuelSupply oxidizerSupply)
  end end.

(** The body of [#pump(elapsed)] up to its [return]. *)
Definition pump_feed (elapsed : num) : M state feed :=
  do e <- read id;
  match _fuelTank e with
  | None => throw NoFuelTankConnectedError
  | Some fuelTank =>
  match _oxidizerTank e with
  | None => throw NoOxidizerTankConnectedError
  | Some oxidizerTank =>
      let a := (CHAMBER_TAP_OFF * elapsed)%J in
      let b := (a * _preburnerCombustion e)%J in
      do fuelDrained <- on_tank fuelTank (Tank.drainMass (_fuelFlow e * b)%J);
      do oxidizerDrained <-
        on_tank oxidizerTank (Tank.drainMass (_oxidizerFlow e * b)%J);
      let fuelSupply := (fuelDrained / (_fuelFlow e * a))%J in
      let oxidizerSupply := (oxidizerDrained / (_oxidizerFlow e * a))%J in
      ret (mkFeed fuelDrained oxidizerDrained fuelSupply oxidizerSupply)
  end end.

(** [#pump(elapsed)] *)
Definition pump (elapsed : num) : M state num :=
  do f <- pump_feed elapsed;
  ret (Num.min (fuelSupply f) (oxidizerSupply f)).

(** [#chamber(mixture)] *)
Definition chamber (mixture : num) : M state unit :=
  if (mixture <? Num.zero)%J || (mixture >? Num.one)%J then throw RangeError
  else
    do e <- read id;
    update (with_chamberCombustion
      (if _chamberIgnition e || (_chamberCombustion e >? Num.zero)%J
       then mixture else Num.zero)).

(** [tick(elapsed)].  [super.tick] only checks that [elapsed] is a number,
    which the type of [elapsed] ensures. *)
Definition tick (elapsed : num) : M state unit :=
  do _ <- preburner elapsed;
  do mixture <- pump elapsed;
  chamber mixture.

(** The engine of [s] is connected to the fuel tank [kf], the object at
    [lf], and to the oxidizer tank [ko], the object at [lo], as the two
    setters leave it. *)
Definition attached (s : state) (lf lo : loc) (kf ko : Tank.t) : Prop :=
  _fuelTank (self s) = Some lf /\ _oxidizerTank (self s) = Some lo /\
  tanks s !! lf = Some kf /\ tanks s !! lo = Some ko /\
  class (Tank._compound kf) = Fuel /\ class (Tank._compound ko) = Oxidizer.




End Engine.


(* ================================================================== *)
(** * Clock *)

(** [Array.prototype.forEach] with a callback that is a method body. *)
Fixpoint forEach {S A : Type} (l : list A) (callback : A -> M S unit) : M S unit :=
  match l with
  | [] => ret tt
  | x :: l' => do _ <- callback x; forEach l' callback
  end.

Module Clock.

(** A clock over temporal objects of type [T].  [_id] is the handle of the
    running interval timer; [None] stands for [undefined] and [null], the
    two falsy values the field takes, and a handle is truthy (a positive
    integer in a browser). *)
Record t (T : Type) : Type := mk {
  _rate : num;
  _interval : num;   (* milliseconds *)
  _elapsed : num;    (* seconds *)
  _temporals : list T;
  _id : option positive
}.
Arguments mk {T} _ _ _ _ _.
Arguments _rate {T} _.
Arguments _interval {T} _.
Arguments _elapsed {T} _.
Arguments _temporals {T} _.
Arguments _id {T} _.

Section Methods.
Context {T : Type}.

(** [new Clock(rate)] *)
Definition new (rate : num) : t T :=
  {| _rate := rate;
     _interval := (int 1000 / rate)%J;
     _elapsed := (Num.one / rate)%J;
     _temporals := [];
     _id := None |}.

Definition with_id (v : option positive) (c : t T) : t T :=
  mk (_rate c) (_interval c) (_elapsed c) (_temporals c) v.

Definition isRunning (c : t T) : bool :=
  match _id c with Some _ => true | None => false end.

(** [register(temporal)]: [this.#temporals.push(temporal)] *)
Definition register (temporal : T) : M (t T) unit :=
  modify (fun c =>
    mk (_rate c) (_interval c) (_elapsed c) (_temporals c ++ [temporal]) (_id c)).

(** [start()]; [handle] is what [setInterval] returns. *)
Definition start (handle : positive) : M (t T) unit :=
  do c <- get;
  match _id c with
  | Some _ => throw IllegalStateError
  | None => modify (with_id (Some handle))
  end.

(** [stop()] *)
Definition stop : M (t T) unit :=
  do c <- get;
  match _id c with
  | Some _ => throw IllegalStateError
  | None => modify (with_id None)
  end.

(** What the documentation of [stop] says: it throws if the clock is not
    running, and stops a running clock. *)
Definition stop_documented : M (t T) unit :=
  do c <- get;
  match _id c with
  | None => throw IllegalStateError
  | Some _ => modify (with_id None)
  end.

(** ** A firing of the timer *)

Context {W : Type}.

(** [method t elapsed] is the body of [t.tick(elapsed)], on the world [W]
    the temporal objects live in. *)
Variable method : T -> num -> M W unit.

(** The world during a firing, the errors written to the console, and
    (as a history, which the code does not keep) the calls of [tick]
    made so far. *)
Record env : Type := mkEnv {
  world : W;
  console : list error;
  calls : list (T * num)
}.

(** The callback of [forEach] in [#tick]: [try { t.tick(elapsed) } catch
    (e) { console.error(e) }]. *)
Definition guarded (elapsed : num) (temporal : T) : M env unit :=
  fun s =>
    let history := calls s ++ [(temporal, elapsed)] in
    match method temporal elapsed (world s) with
    | (Ok _, w) => (Ok tt, mkEnv w (console s) history)
    | (Throw e, w) => (Ok tt, mkEnv w (console s ++ [e]) history)
    end.

(** [#tick()] *)
Definition tick (c : t T) : M env unit :=
  forEach (_temporals c) (guarded (_elapsed c)).

End Methods.

Arguments env : clear implicits.

End Clock.

(* ================================================================== *)
(** * The set-up of [draw] *)

Module Draw.

Definition oxidizerTank : Tank.t :=
  snd (Tank.fillMass (int 100000)
         (Tank.new Oxidizers.LIQUID_OXIGEN
            (int 50000 / density Oxidizers.LIQUID_OXIGEN)%J)).

Definition fuelTank : Tank.t :=
  snd (Tank.fillMass (int 50000)
         (Tank.new Fuels.RP_1 (int 10000 / density Fuels.RP_1)%J)).

(** The two tank objects. *)
Definition fuel_loc : loc := 1%positive.
Definition oxidizer_loc : loc := 2%positive.

Definition tanks : gmap loc Tank.t :=
  <[oxidizer_loc := oxidizerTank]> (<[fuel_loc := fuelTank]> ∅).

(** [engineL] (and [engineR], which is set up alike) with the given
    igniters and throttle, next to the tanks. *)
Definition engine (preburnerIgnition chamberIgnition : bool) (throttle : num)
  : Engine.state :=
  snd ((do _ <- Engine.set_fuelTank (Some fuel_loc);
        do _ <- Engine.set_oxidizerTank (Some oxidizer_loc);
        do _ <- Engine.set_preburnerIgnition preburnerIgnition;
        do _ <- Engine.set_chamberIgnition chamberIgnition;
        Engine.set_throttle throttle)
       (Engine.mkState (Engine.new (int 7770000) (int 788) (int 2578)) tanks)).

End Draw.

(* ================================================================== *)
(** * Engines as temporal objects *)

Module Sim.

(** The objects of a simulation: engines and the tanks they share. *)
Record world : Type := mkWorld {
  engines : gmap loc Engine.t;
  tanks : gmap loc Tank.t
}.

(** [engine.tick(elapsed)] for the engine object at [l]. *)
Definition engine_tick (l : loc) (elapsed : num) : M world unit :=
  fun w =>
    match engines w !! l with
    | Some e =>
        let (r, s) := Engine.tick elapsed (Engine.mkState e (tanks w)) in
        (r, mkWorld (<[l := Engine.self s]> (engines w)) (Engine.tanks s))
    | None => (Throw TypeError, w)
    end.

(** Two engine objects next to the tanks of [draw]: the first was only
    constructed, the second is set up as [draw] sets up [engineL]. *)
Definition bare_loc : loc := 1%positive.
Definition wired_loc : loc := 2%positive.

Definition two_engines : world :=
  mkWorld
    (<[wired_loc := Engine.self (Draw.engine true true Num.one)]>
       (<[bare_loc := Engine.new (int 7770000) (int 788) (int 2578)]> ∅))
    Draw.tanks.

(** [engineL] and [engineR] of [draw] on the same two tanks, the fuel
    tank holding 39.4 kg, what the pre-burner of one engine asks for in
    one second at full throttle. *)
Definition left_loc : loc := 1%positive.
Definition right_loc : loc := 2%positive.

Definition short_of_fuel : world :=
  mkWorld
    (<[right_loc := Engine.self (Draw.engine true true Num.one)]>
       (<[left_loc := Engine.self (Draw.engine true true Num.one)]> ∅))
    (<[Draw.fuel_loc := Tank.set_level (lit 394 10) Draw.fuelTank]> Draw.tanks).

End Sim.

(* ================================================================== *)
(** * Engines at work: sequences of ticks *)

Module Burn.


(** A finite number above 0. *)
Definition positive (x : num) : bool := Num.finite x && (Num.zero <? x)%J.






End Burn.


(* ================================================================== *)
(** * A clock in use: sequences of calls and of firings *)

Module Script.

(** A call of one of the public methods of a clock. *)
Inductive call (T : Type) : Type :=
| Register (temporal : T)
| Start (handle : positive)
| Stop.
Arguments Register {T} temporal.
Arguments Start {T} handle.
Arguments Stop {T}.

Definition perform {T : Type} (x : call T) : M (Clock.t T) unit :=
  match x with
  | Register temporal => Clock.register temporal
  | Start handle => Clock.start handle
  | Stop => Clock.stop
  end.

(** A caller that makes the calls in turn and goes on after an
    exception: the outcome of every call, and the clock after the last
    one. *)
Fixpoint run {T : Type} (cs : list (call T)) (c : Clock.t T)
  : list (res unit) * Clock.t T :=
  match cs with
  | [] => ([], c)
  | x :: cs' =>
      let (r, c1) := perform x c in
      let (rs, c2) := run cs' c1 in
      (r :: rs, c2)
  end.

(** The handle given to the first [start] of a sequence of calls, and the
    objects the sequence registers. *)
Fixpoint first_handle {T : Type} (cs : list (call T)) : option positive :=
  match cs with
  | [] => None
  | Start handle :: _ => Some handle
  | _ :: cs' => first_handle cs'
  end.

Fixpoint temporals_of {T : Type} (cs : list (call T)) : list T :=
  match cs with
  | [] => []
  | Register temporal :: cs' => temporal :: temporals_of cs'
  | _ :: cs' => temporals_of cs'
  end.

(** What a running clock answers to a call. *)
Definition answer_when_running {T : Type} (x : call T) : res unit :=
  match x with
  | Register _ => Ok tt
  | Start _ | Stop => Throw IllegalStateError
  end.


End Script.

(* ================================================================== *)
(** * Bodies, angles and orbits *)

(** [CelestialBody], [G] and [Angle] of [src/js/app.js], and [Orbit] of
    [src/js/space/mfd.js].  Arithmetic is exact, as for the engine. *)

(** The functions of [Math] and the operators the classes below use.
    [Math.PI] is the double nearest to the number pi, a fraction with
    denominator 2^48. *)
Module Math.

Definition PI : num := lit 884279719003555 281474976710656.

(** [Math.abs(x)] *)
Definition abs (x : num) : num :=
  match x with
  | Fin q => Fin (if q_lt q 0 then (- q)%Qc else q)
  | PInf | NInf => PInf
  | NaN => NaN
  end.

(** The whole part of a fraction, rounded towards zero. *)
Definition trunc (q : Qc) : Qc := dec (Z.quot (Qnum q) (Zpos (Qden q))) 1.

(** [x % y]: the remainder has the sign of [x]. *)
Definition rem (x y : num) : num :=
  match x, y with
  | Fin a, Fin b =>
      if q_eq b 0 then NaN else Fin (a - b * trunc (a / b))%Qc
  | Fin a, (PInf | NInf) => Fin a
  | _, _ => NaN
  end.

(** [x ** 2] *)
Definition square (x : num) : num := (x * x)%J.

End Math.

(** Gravitational constant, [6.67259e-11]. *)
Definition G : num := lit 667259 10000000000000000.

Module CelestialBody.

(** A body and, with [primary], the chain of the bodies it orbits. *)
Unset Elimination Schemes.
Inductive t : Type :=
  mk (mass gm : num) (primary : option t) (distance : option num).
Set Elimination Schemes.

Definition _mass (b : t) : num := match b with mk m _ _ _ => m end.
Definition _primary (b : t) : option t := match b with mk _ _ p _ => p end.
Definition _distance (b : t) : option num := match b with mk _ _ _ d => d end.

(** [new CelestialBody(mass, primary, distance)]; [None] for an argument
    is [undefined], and the result is [None] when the constructor throws
    (a primary body without a distance). *)
Definition new (mass : num) (primary : option t) (distance : option num)
  : option t :=
  match primary, distance with
  | Some _, None => None
  | _, _ => Some (mk mass (G * mass)%J primary distance)
  end.

Definition mass (b : t) : num := _mass b.


End CelestialBody.

Module Angle.

Definition DOUBLE_PI : num := (int 2 * Math.PI)%J.
Definition DEGREE_RADIANS : num := (Math.PI / int 180)%J.

Record t : Type := mk { _value : num }.

(** [new Angle(radians)] *)
Definition new (radians : num) : t :=
  let normalized := Math.rem radians DOUBLE_PI in
  {| _value := if (normalized <? Num.zero)%J
               then (DOUBLE_PI - normalized)%J else normalized |}.


Definition radians (a : t) : num := _value a.

End Angle.

Module Orbit.

Record t : Type := mk {
  _periapsis : num;
  _apoapsis : num;
  _eccentricity : num;
  _majorAxis : num;
  _minorAxis : num;
  _semiMajorAxis : num;
  _semiMinorAxis : num;
  _elliptical : bool
}.

Section Constructors.

(** [Math.sqrt], of which nothing is assumed. *)
Variable sqrt : num -> num.

(** [new Orbit(periapsis, apoapsis)] *)
Definition new (periapsis apoapsis : num) : t :=
  let eccentricity := Math.abs ((apoapsis - periapsis) / (apoapsis + periapsis))%J in
  let majorAxis := (periapsis + apoapsis)%J in
  let minorAxis :=
    (majorAxis * sqrt (Num.one - Math.square eccentricity))%J in
  {| _periapsis := periapsis;
     _apoapsis := apoapsis;
     _eccentricity := eccentricity;
     _majorAxis := majorAxis;
     _minorAxis := minorAxis;
     _semiMajorAxis := (majorAxis / int 2)%J;
     _semiMinorAxis := (minorAxis / int 2)%J;
     _elliptical := (eccentricity <? Num.one)%J |}.


End Constructors.

End Orbit.

(* ================================================================== *)
(** * Rationals and numbers: basic facts *)

Lemma q_le_true (x y : Qc) : q_le x y = true <-> (x <= y)%Qc.
Proof.
  unfold q_le. rewrite Qcle_alt.
  destruct (x ?= y)%Qc; intuition congruence.
Qed.

Lemma q_le_false (x y : Qc) : q_le x y = false <-> (y < x)%Qc.
Proof.
  unfold q_le. pose proof (Qcgt_alt x y) as H. cbv beta in H. rewrite H.
  destruct (x ?= y)%Qc; intuition congruence.
Qed.

Lemma q_lt_true (x y : Qc) : q_lt x y = true <-> (x < y)%Qc.
Proof.
  unfold q_lt. rewrite Qclt_alt.
  destruct (x ?= y)%Qc; intuition congruence.
Qed.

Lemma q_lt_false (x y : Qc) : q_lt x y = false <-> (y <= x)%Qc.
Proof.
  unfold q_lt. pose proof (Qcge_alt x y) as H. cbv beta in H. rewrite H.
  destruct (x ?= y)%Qc; intuition congruence.
Qed.

Lemma q_eq_true (x y : Qc) : q_eq x y = true <-> x = y.
Proof.
  unfold q_eq. rewrite Qceq_alt.
  destruct (x ?= y)%Qc; intuition congruence.
Qed.

Lemma q_eq_false (x y : Qc) : q_eq x y = false <-> x <> y.
Proof.
  unfold q_eq. rewrite Qceq_alt.
  destruct (x ?= y)%Qc; intuition congruence.
Qed.

Lemma Qc_eq_Qeq (x y : Qc) : x = y <-> (x == y)%Q.
Proof. split; [intros ->; reflexivity | apply Qc_is_canon]. Qed.

(** Turn every comparison of rationals in the context and the goal into
    its statement on [Q], where [lra] and [nra] work. *)
Ltac to_Q :=
  repeat match goal with
  | H : q_le _ _ = true |- _ => apply q_le_true in H
  | H : q_le _ _ = false |- _ => apply q_le_false in H
  | H : q_lt _ _ = true |- _ => apply q_lt_true in H
  | H : q_lt _ _ = false |- _ => apply q_lt_false in H
  | H : q_eq _ _ = true |- _ => apply q_eq_true in H
  | H : q_eq _ _ = false |- _ => apply q_eq_false in H
  | H : @eq Qc _ _ |- _ => apply Qc_eq_Qeq in H
  | H : ~ @eq Qc _ _ |- _ => rewrite Qc_eq_Qeq in H
  | |- q_le _ _ = true => apply q_le_true
  | |- q_le _ _ = false => apply q_le_false
  | |- q_lt _ _ = true => apply q_lt_true
  | |- q_lt _ _ = false => apply q_lt_false
  | |- q_eq _ _ = true => apply q_eq_true
  | |- q_eq _ _ = false => apply q_eq_false
  | |- @eq Qc _ _ => apply Qc_is_canon
  | |- ~ @eq Qc _ _ => rewrite Qc_eq_Qeq
  end;
  unfold Qcle, Qclt, Qcminus, Qcdiv, dec in *;
  cbn [this Qcplus Qcopp Qcmult Qcinv Q2Qc] in *;
  rewrite ?Qred_correct in *.


(** Name every inverse [/ b] of a positive [b], keeping that it is positive
    and that [b * / b == 1]; what is left is polynomial arithmetic. *)
Ltac name_inverses :=
  repeat match goal with
  | Hpos : (0 < ?b)%Q |- _ =>
      match goal with
      | |- context [(/ b)%Q] => idtac
      | H : context [(/ b)%Q] |- _ => idtac
      end;
      let ib := fresh "ib" in
      let Hib := fresh "Hib" in
      let Hone := fresh "Hone" in
      pose proof (Qinv_lt_0_compat b Hpos) as Hib;
      assert (b * / b == 1)%Q as Hone
        by (apply Qmult_inv_r, Qnot_eq_sym, Qlt_not_eq, Hpos);
      set (ib := (/ b)%Q) in *; clearbody ib
  end.

Ltac q_arith := to_Q; first [lra | name_inverses; nra].

Lemma Fin_eq (a b : Qc) : (a == b)%Q -> Fin a = Fin b.
Proof. intros H. f_equal. apply Qc_is_canon, H. Qed.

(** Equality of two closed numbers, by evaluation. *)
Ltac num_eq := vm_compute; first [reflexivity | apply Fin_eq; reflexivity].


(* ================================================================== *)
(** * Tank: what a transfer returns and does to the level *)


Lemma request_ok_fin (x : num) :
  Tank.request_ok x = true -> exists q : Qc, x = Fin q /\ (0 <= q)%Qc.
Proof.
  unfold Tank.request_ok, Num.nonneg.
  destruct x as [q| | |]; cbn; try discriminate.
  rewrite q_le_true. eauto.
Qed.





(** The mass variants move the level by the returned amount, whatever the
    tank and the request. *)
Lemma fillMass_level (x : num) (k : Tank.t) :
  Tank._level (snd (Tank.fillMass x k))
  = (Tank._level k + fst (Tank.fillMass x k))%J.
Proof. reflexivity. Qed.

Lemma drainMass_level (x : num) (k : Tank.t) :
  Tank._level (snd (Tank.drainMass x k))
  = (Tank._level k - fst (Tank.drainMass x k))%J.
Proof. reflexivity. Qed.




(* ================================================================== *)
(** * Tank: the level stays within the capacity *)




(** A new tank is well formed when its capacity and the density of its
    compound are finite and not negative. *)
Lemma new_well_formed (compound : Compound) (capacity : num) :
  Tank.request_ok capacity = true ->
  Tank.request_ok (density compound) = true ->
  Tank.well_formed (Tank.new compound capacity) = true.
Proof.
  intros Hc Hd.
  apply request_ok_fin in Hc as (c & -> & ?).
  apply request_ok_fin in Hd as (d & Hd & ?).
  unfold Tank.well_formed, Tank.level_in_range; cbn. rewrite Hd; cbn.
  rewrite !andb_true_iff; repeat split; q_arith.
Qed.




(* ================================================================== *)
(** * Tank: the RP-1 scenario *)

(** C8 (as amended).  [Tank(RP-1, 10000/0.820 mL)] has a mass capacity
    of [10000/0.820 * 0.000820 = 10] kg.  On the new, empty tank
    [fillMass(50000)] returns 10, the mass capacity, and leaves the mass
    level at 10; [fillMass(20000)] on the tank, now full, returns 0. *)
Theorem rp1_scenario :
  let k0 := Tank.new Fuels.RP_1 (int 10000 / lit 820 1000)%J in
  let k1 := snd (Tank.fillMass (int 50000) k0) in
  Tank.massLevel k0 = Num.zero /\
  Tank._massCapacity k0 = int 10 /\
  fst (Tank.fillMass (int 50000) k0) = int 10 /\
  Tank.massLevel k1 = int 10 /\
  fst (Tank.fillMass (int 20000) k1) = Num.zero.
Proof. cbv zeta. repeat split; num_eq. Qed.

(** C8 as stated fails: the first [fillMass(50000)] does not return
    50000 and does not leave the level at 50000. *)
Lemma rp1_scenario_not_50000 :
  let k0 := Tank.new Fuels.RP_1 (int 10000 / lit 820 1000)%J in
  fst (Tank.fillMass (int 50000) k0) <> int 50000 /\
  Tank.massLevel (snd (Tank.fillMass (int 50000) k0)) <> int 50000.
Proof. vm_compute. split; intros H; discriminate H. Qed.

(** With the capacity of [draw], [10000 / RP_1.density] ml, the mass
    capacity is 10000 kg and [fillMass(50000)] returns 10000. *)
Lemma rp1_draw_tank :
  let k0 := Tank.new Fuels.RP_1 (int 10000 / density Fuels.RP_1)%J in
  Tank._massCapacity k0 = int 10000 /\
  fst (Tank.fillMass (int 50000) k0) = int 10000.
Proof. cbv zeta. repeat split; num_eq. Qed.

(* ================================================================== *)
(** * Numbers: products and signs *)




Lemma Qc_sign (x : Qc) : (x < 0)%Qc \/ x = 0%Qc \/ (0 < x)%Qc.
Proof. destruct (Qc_dec x 0) as [[H|H]|H]; auto. Qed.






Lemma nonneg_fin (x : num) :
  Num.nonneg x = true -> exists q : Qc, x = Fin q /\ (0 <= q)%Qc.
Proof. apply request_ok_fin. Qed.







(* ================================================================== *)
(** * Engine: running the stages *)

Import Engine.

Lemma attached_distinct (s : state) (lf lo : loc) (kf ko : Tank.t) :
  attached s lf lo kf ko -> lf <> lo.
Proof.
  intros (_ & _ & Hf & Ho & Hcf & Hco) ->. rewrite Hf in Ho.
  injection Ho as ->. congruence.
Qed.

Lemma on_tank_run {A} (l : loc) (method : Tank.t -> A * Tank.t)
    (s : state) (k : Tank.t) :
  tanks s !! l = Some k ->
  on_tank l method s
  = (Ok (fst (method k)),
     mkState (self s) (<[l := snd (method k)]> (tanks s))).
Proof.
  intros H. unfold on_tank. rewrite H. destruct (method k); reflexivity.
Qed.

(** The tanks after a stage has drained both. *)
Lemma attached_after (s : state) (lf lo : loc) (kf ko : Tank.t)
    (e' : t) (x y : num) :
  attached s lf lo kf ko ->
  _fuelTank e' = _fuelTank (self s) ->
  _oxidizerTank e' = _oxidizerTank (self s) ->
  attached
    (mkState e'
       (<[lo := snd (Tank.drainMass y ko)]>
          (<[lf := snd (Tank.drainMass x kf)]> (tanks s))))
    lf lo (snd (Tank.drainMass x kf)) (snd (Tank.drainMass y ko)).
Proof.
  intros Hat Hef Heo. pose proof (attached_distinct _ _ _ _ _ Hat) as Hne.
  destruct Hat as (Hpf & Hpo & Hf & Ho & Hcf & Hco).
  unfold attached; cbn. rewrite Hef, Heo.
  repeat split; try assumption.
  - rewrite lookup_insert_ne by auto. apply lookup_insert_eq.
  - apply lookup_insert_eq.
Qed.

Lemma preburner_run (elapsed : num) (s : state) (lf lo : loc) (kf ko : Tank.t) :
  attached s lf lo kf ko ->
  let e := self s in
  let a := (PREBURNER_TAP_OFF * elapsed)%J in
  let b := (a * _throttle e)%J in
  let fd := Tank.drainMass (_fuelFlow e * b)%J kf in
  let od := Tank.drainMass (_oxidizerFlow e * b)%J ko in
  let fs := (fst fd / (_fuelFlow e * a))%J in
  let os := (fst od / (_oxidizerFlow e * a))%J in
  preburner elapsed s
  = (Ok (mkFeed (fst fd) (fst od) fs os),
     mkState
       (with_preburnerCombustion
          (if _preburnerIgnition e || (_preburnerCombustion e >? Num.zero)%J
           then Num.min fs os else Num.zero) e)
       (<[lo := snd od]> (<[lf := snd fd]> (tanks s)))).
Proof.
  intros Hat. pose proof (attached_distinct _ _ _ _ _ Hat) as Hne.
  destruct Hat as (Hpf & Hpo & Hf & Ho & _ & _).
  cbv zeta. unfold preburner, bind, read, get, ret, id. cbn. rewrite Hpf, Hpo.
  rewrite (on_tank_run lf _ s kf Hf). cbn.
  rewrite (on_tank_run lo _ _ ko) by (cbn; rewrite lookup_insert_ne; auto).
  reflexivity.
Qed.

Lemma pump_feed_run (elapsed : num) (s : state) (lf lo : loc) (kf ko : Tank.t) :
  attached s lf lo kf ko ->
  let e := self s in
  let a := (CHAMBER_TAP_OFF * elapsed)%J in
  let b := (a * _preburnerCombustion e)%J in
  let fd := Tank.drainMass (_fuelFlow e * b)%J kf in
  let od := Tank.drainMass (_oxidizerFlow e * b)%J ko in
  let fs := (fst fd / (_fuelFlow e * a))%J in
  let os := (fst od / (_oxidizerFlow e * a))%J in
  pump_feed elapsed s
  = (Ok (mkFeed (fst fd) (fst od) fs os),
     mkState e (<[lo := snd od]> (<[lf := snd fd]> (tanks s)))).
Proof.
  intros Hat. pose proof (attached_distinct _ _ _ _ _ Hat) as Hne.
  destruct Hat as (Hpf & Hpo & Hf & Ho & _ & _).
  cbv zeta. unfold pump_feed, bind, read, get, ret, id. cbn. rewrite Hpf, Hpo.
  rewrite (on_tank_run lf _ s kf Hf). cbn.
  rewrite (on_tank_run lo _ _ ko) by (cbn; rewrite lookup_insert_ne; auto).
  reflexivity.
Qed.

Lemma chamber_run (mixture : num) (s : state) :
  (mixture <? Num.zero)%J || (mixture >? Num.one)%J = false ->
  chamber mixture s
  = (Ok tt,
     mkState
       (with_chamberCombustion
          (if _chamberIgnition (self s)
              || (_chamberCombustion (self s) >? Num.zero)%J
           then mixture else Num.zero) (self s))
       (tanks s)).
Proof. intros H. unfold chamber. rewrite H. reflexivity. Qed.

Lemma chamber_out_of_range (mixture : num) (s : state) :
  (mixture <? Num.zero)%J || (mixture >? Num.one)%J = true ->
  chamber mixture s = (Throw RangeError, s).
Proof. intros H. unfold chamber. rewrite H. reflexivity. Qed.

(** [tick] is [#preburner], then [#pump], then [#chamber] on what [#pump]
    returned. *)
Lemma tick_stages (elapsed : num) (s s1 s2 : state) (f1 f2 : feed) :
  preburner elapsed s = (Ok f1, s1) ->
  pump_feed elapsed s1 = (Ok f2, s2) ->
  tick elapsed s = chamber (Num.min (fuelSupply f2) (oxidizerSupply f2)) s2.
Proof.
  intros H1 H2. unfold tick, pump, bind. rewrite H1, H2. reflexivity.
Qed.








Lemma draw_attached (pi ci : bool) (throttle : num) :
  (throttle <? Num.zero)%J || (throttle >? Num.one)%J = false ->
  attached (Draw.engine pi ci throttle)
    Draw.fuel_loc Draw.oxidizer_loc Draw.fuelTank Draw.oxidizerTank.
Proof.
  intros H. unfold attached, Draw.engine, set_throttle.
  rewrite H. repeat split.
Qed.


(** The two setters, called with a fuel tank and an oxidizer tank, leave
    the engine attached to them; a tank of the other class is refused
    with a [RangeError] and the engine stays as it was. *)
Lemma setters_attach (s : state) (lf lo : loc) (kf ko : Tank.t) :
  tanks s !! lf = Some kf -> tanks s !! lo = Some ko ->
  class (Tank._compound kf) = Fuel -> class (Tank._compound ko) = Oxidizer ->
  exists s' : state,
    (do _ <- set_fuelTank (Some lf); set_oxidizerTank (Some lo)) s = (Ok tt, s') /\
    attached s' lf lo kf ko /\
    tanks s' = tanks s /\
    set_fuelTank (Some lo) s = (Throw RangeError, s) /\
    set_oxidizerTank (Some lf) s = (Throw RangeError, s).
Proof.
  intros Hf Ho Hcf Hco.
  assert (forall l k, tanks s !! l = Some k ->
            on_tank l (fun k => (k, k)) s = (Ok k, s)) as Hpeek.
  { intros l k Hl. rewrite (on_tank_run l _ s k Hl). cbn.
    rewrite insert_id by exact Hl. destruct s; reflexivity. }
  unfold set_fuelTank, set_oxidizerTank, bind.
  rewrite (Hpeek lf kf Hf), (Hpeek lo ko Ho), Hcf, Hco.
  unfold update, modify, on_tank. cbn. rewrite Ho, Hco. cbn.
  rewrite insert_id by exact Ho.
  eexists. split; [reflexivity|]. unfold attached, throw. cbn.
  repeat split; assumption.
Qed.

(* ================================================================== *)
(** * Engine: demand and supply ratios of the two feeding stages *)




(** With [elapsed = 0] the divisors are 0 and both supply ratios of
    [#preburner] are [0 / 0], that is [NaN]; the ignited pre-burner takes
    the level [NaN], [#pump] then asks both tanks for [NaN], and after the
    tick the levels of both tanks are [NaN]. *)
Lemma zero_elapsed_tick :
  let s := Draw.engine true true Num.one in
  (exists (f : feed) (s1 : state),
     preburner Num.zero s = (Ok f, s1) /\
     fuelSupply f = NaN /\ oxidizerSupply f = NaN /\
     _preburnerCombustion (self s1) = NaN) /\
  fst (tick Num.zero s) = Ok tt /\
  Tank.massLevel <$> tanks (snd (tick Num.zero s)) !! Draw.fuel_loc = Some NaN /\
  Tank.massLevel <$> tanks (snd (tick Num.zero s)) !! Draw.oxidizer_loc
  = Some NaN.
Proof.
  cbv zeta. split.
  - eexists _, _. split.
    + apply (preburner_run _ _ Draw.fuel_loc Draw.oxidizer_loc
               Draw.fuelTank Draw.oxidizerTank).
      apply draw_attached. reflexivity.
    + repeat split; vm_compute; reflexivity.
  - repeat split; vm_compute; reflexivity.
Qed.

(* ================================================================== *)
(** * Engine: a tick without a tank *)

(** C6.  When the fuel tank is unset, [tick] throws
    [NoFuelTankConnectedError]; when the fuel tank is set and the oxidizer
    tank is unset, it throws [NoOxidizerTankConnectedError]; in both cases
    the state after the call is the state before it, so that nothing was
    drained and both combustion levels and the levels of all tanks are
    unchanged.  (With both tanks unset the first case applies: the fuel
    tank is checked first.) *)
Theorem tick_without_tank (elapsed : num) (s : state) :
  (_fuelTank (self s) = None ->
   tick elapsed s = (Throw NoFuelTankConnectedError, s)) /\
  (_fuelTank (self s) <> None -> _oxidizerTank (self s) = None ->
   tick elapsed s = (Throw NoOxidizerTankConnectedError, s)) /\
  (_fuelTank (self s) = None \/ _oxidizerTank (self s) = None ->
   exists e : error,
     tick elapsed s = (Throw e, s) /\ isNoTankConnectedError e = true).
Proof.
  unfold tick, preburner, bind, read, get, ret, throw, id. cbn.
  destruct (_fuelTank (self s)) as [lf|], (_oxidizerTank (self s)) as [lo|].
  all: repeat split; try congruence; try reflexivity.
  all: intros [H|H]; try discriminate H; eexists; split; reflexivity.
Qed.

Lemma tick_without_tank_witness :
  let s := mkState (Engine.new (int 7770000) (int 788) (int 2578)) Draw.tanks in
  let s' := snd (set_fuelTank (Some Draw.fuel_loc) s) in
  tick (lit 1 24) s = (Throw NoFuelTankConnectedError, s) /\
  tick (lit 1 24) s' = (Throw NoOxidizerTankConnectedError, s').
Proof.
  cbv zeta. split.
  - apply (tick_without_tank (lit 1 24)). reflexivity.
  - apply (tick_without_tank (lit 1 24)).
    + vm_compute. discriminate.
    + reflexivity.
Defined.

(* ================================================================== *)
(** * Engine: a tick of an engine that was never ignited *)









(* ================================================================== *)
(** * Engine: the range check of the chamber *)

(** What [tick] does once both feeding stages have run: [#chamber] sets
    the chamber level from a mixture that passes its range check, and
    throws a [RangeError], leaving the chamber level as it was, on one
    that does not. *)
Lemma tick_chamber_guard (elapsed : num) (s s1 s2 : state) (f1 f2 : feed) :
  preburner elapsed s = (Ok f1, s1) ->
  pump_feed elapsed s1 = (Ok f2, s2) ->
  let mixture := Num.min (fuelSupply f2) (oxidizerSupply f2) in
  tick elapsed s
  = (if (mixture <? Num.zero)%J || (mixture >? Num.one)%J
     then (Throw RangeError, s2)
     else (Ok tt,
           mkState
             (with_chamberCombustion
                (if _chamberIgnition (self s2)
                    || (_chamberCombustion (self s2) >? Num.zero)%J
                 then mixture else Num.zero) (self s2))
             (tanks s2))).
Proof.
  intros H1 H2 mixture. rewrite (tick_stages elapsed s s1 s2 f1 f2 H1 H2).
  fold mixture. unfold chamber.
  destruct ((mixture <? Num.zero)%J || (mixture >? Num.one)%J); reflexivity.
Qed.

(** Outside the ranges of the data model the check can fail.  A fuel tank
    taken to the level -5 by [fillMass(-5)] gives negative supply ratios:
    the tick ends with a [RangeError] after [#preburner] has set its level
    to a negative number, and the chamber level stays 0. *)
Lemma overdrawn_tank_range_error :
  let fuel :=
    snd (Tank.fillMass (int (-5))
           (Tank.new Fuels.RP_1 (int 10000 / density Fuels.RP_1)%J)) in
  let s := mkState (self (Draw.engine true true Num.one))
             (<[Draw.fuel_loc := fuel]> Draw.tanks) in
  Tank.massLevel fuel = int (-5) /\
  fst (tick Num.one s) = Throw RangeError /\
  (_preburnerCombustion (self (snd (tick Num.one s))) <? Num.zero)%J = true /\
  _chamberCombustion (self (snd (tick Num.one s))) = Num.zero.
Proof. cbv zeta. repeat split; vm_compute; reflexivity. Qed.

(* ================================================================== *)
(** * Engine: the derived read accessors *)





(** An engine of [draw], at half throttle, burns at half its nominal
    level after one tick. *)
Lemma draw_half_throttle :
  let s := snd (tick (lit 1 24) (Draw.engine true true (lit 1 2))) in
  _preburnerCombustion (self s) = lit 1 2 /\
  _chamberCombustion (self s) = lit 1 2 /\
  thrustLevel (self s) = lit 1 2.
Proof. cbv zeta. repeat split; num_eq. Qed.

(* ================================================================== *)
(** * Clock: starting and stopping *)

(** [start] throws exactly when the clock is running; [stop] throws
    exactly when the clock is running as well, where its documentation
    has it throw when the clock is not running. *)
Lemma start_stop_guards {T : Type} (c : Clock.t T) (handle : positive) :
  Clock.start handle c
  = (if Clock.isRunning c then (Throw IllegalStateError, c)
     else (Ok tt, Clock.with_id (Some handle) c)) /\
  Clock.stop c
  = (if Clock.isRunning c then (Throw IllegalStateError, c)
     else (Ok tt, Clock.with_id None c)) /\
  Clock.stop_documented c
  = (if Clock.isRunning c then (Ok tt, Clock.with_id None c)
     else (Throw IllegalStateError, c)).
Proof.
  unfold Clock.start, Clock.stop, Clock.stop_documented, Clock.isRunning,
    bind, get, throw, modify.
  destruct (Clock._id c); repeat split.
Qed.

(** C7, at a clock that was started: [stop()] throws [IllegalStateError]
    and the clock keeps running, where the claim (and the documentation of
    [stop]) has it succeed and leave the clock stopped; and on a clock
    that is not running [stop()] returns normally where the claim has it
    fail. *)
Theorem stop_throws_on_running_clock :
  let stopped : Clock.t loc := Clock.new (int 24) in
  let running := snd (Clock.start 1%positive stopped) in
  Clock.isRunning stopped = false /\
  Clock.isRunning running = true /\
  Clock.stop running = (Throw IllegalStateError, running) /\
  Clock.isRunning (snd (Clock.stop running)) = true /\
  Clock.stop_documented running = (Ok tt, Clock.with_id None running) /\
  fst (Clock.stop stopped) = Ok tt /\
  fst (Clock.stop_documented stopped) = Throw IllegalStateError /\
  fst (Clock.start 2%positive running) = Throw IllegalStateError.
Proof. cbv zeta. repeat split. Qed.

(* ================================================================== *)
(** * Clock: a firing *)



Section Firing.
Context {T W : Type}.
Variable method : T -> num -> M W unit.




End Firing.


(** The firing above, evaluated: the engine without tanks fails, its
    error is on the console, and the engine registered after it has
    burnt [788 / 24] kg of fuel. *)
Lemma firing_with_a_faulty_engine :
  let c := snd (forEach [Sim.bare_loc; Sim.wired_loc] Clock.register
                  (Clock.new (int 24))) in
  let r := Clock.tick Sim.engine_tick c (Clock.mkEnv Sim.two_engines [] []) in
  fst r = Ok tt /\
  Clock.console (snd r) = [NoFuelTankConnectedError] /\
  map fst (Clock.calls (snd r)) = [Sim.bare_loc; Sim.wired_loc] /\
  (Tank.massLevel <$> Sim.tanks (Clock.world (snd r)) !! Draw.fuel_loc)
  = Some (int 10000 - int 788 / int 24)%J.
Proof.
  cbv zeta. repeat split; try (vm_compute; reflexivity).
  vm_compute. f_equal. apply Fin_eq. reflexivity.
Qed.

(** Two engines on the same tanks are served in the order of their
    registration: with fuel for the pre-burner of one engine only, the
    engine registered first burns it all and the second one finds the
    tank empty. *)
Lemma first_registered_engine_is_served_first :
  let c := snd (forEach [Sim.left_loc; Sim.right_loc] Clock.register
                  (Clock.new Num.one)) in
  let r := Clock.tick Sim.engine_tick c (Clock.mkEnv Sim.short_of_fuel [] []) in
  let w := Clock.world (snd r) in
  fst r = Ok tt /\
  Clock.console (snd r) = [] /\
  Tank.massLevel <$> Sim.tanks w !! Draw.fuel_loc = Some Num.zero /\
  _preburnerCombustion <$> Sim.engines w !! Sim.left_loc = Some Num.one /\
  _preburnerCombustion <$> Sim.engines w !! Sim.right_loc = Some Num.zero.
Proof.
  cbv zeta. repeat split; try (vm_compute; reflexivity).
  all: vm_compute; f_equal; apply Fin_eq; reflexivity.
Qed.

(* ================================================================== *)
(** * Tank: round trips, sums and bounds of transfers *)


Lemma set_level_twice (a b : num) (k : Tank.t) :
  Tank.set_level a (Tank.set_level b k) = Tank.set_level a k.
Proof. reflexivity. Qed.















(* ================================================================== *)
(** * Engine: a tick in one equation, and what a tick leaves alone *)

(** The heap after both feeding stages have written both tanks. *)
Lemma tanks_written_twice (h : gmap loc Tank.t) (lf lo : loc)
    (kf1 ko1 kf2 ko2 : Tank.t) :
  lf <> lo ->
  <[lo := ko2]> (<[lf := kf2]> (<[lo := ko1]> (<[lf := kf1]> h)))
  = <[lo := ko2]> (<[lf := kf2]> h).
Proof.
  intros Hne. apply map_eq. intros i.
  destruct (decide (i = lo)) as [->|Hlo].
  - rewrite !lookup_insert_eq. reflexivity.
  - rewrite !(lookup_insert_ne _ lo i) by auto.
    destruct (decide (i = lf)) as [->|Hlf].
    + rewrite !lookup_insert_eq. reflexivity.
    + repeat first [ rewrite (lookup_insert_ne _ lf i) by auto
                   | rewrite (lookup_insert_ne _ lo i) by auto ].
      reflexivity.
Qed.

(** [tick] on an engine fed from both tanks, in one equation: the two
    feeding stages written out, up to the call of [#chamber]. *)
Lemma tick_explicit (elapsed : num) (s : state) (lf lo : loc) (kf ko : Tank.t) :
  attached s lf lo kf ko ->
  let e := self s in
  let a1 := (PREBURNER_TAP_OFF * elapsed)%J in
  let fd1 := Tank.drainMass (_fuelFlow e * (a1 * _throttle e))%J kf in
  let od1 := Tank.drainMass (_oxidizerFlow e * (a1 * _throttle e))%J ko in
  let pc1 :=
    if _preburnerIgnition e || (_preburnerCombustion e >? Num.zero)%J
    then Num.min (fst fd1 / (_fuelFlow e * a1))%J
                 (fst od1 / (_oxidizerFlow e * a1))%J
    else Num.zero in
  let a2 := (CHAMBER_TAP_OFF * elapsed)%J in
  let fd2 := Tank.drainMass (_fuelFlow e * (a2 * pc1))%J (snd fd1) in
  let od2 := Tank.drainMass (_oxidizerFlow e * (a2 * pc1))%J (snd od1) in
  tick elapsed s
  = chamber (Num.min (fst fd2 / (_fuelFlow e * a2))%J
                     (fst od2 / (_oxidizerFlow e * a2))%J)
      (mkState (with_preburnerCombustion pc1 e)
         (<[lo := snd od2]> (<[lf := snd fd2]> (tanks s)))).
Proof.
  intros Hat. cbv zeta.
  pose proof (attached_distinct _ _ _ _ _ Hat) as Hne.
  pose proof (preburner_run elapsed s lf lo kf ko Hat) as Hpre.
  cbv zeta in Hpre.
  match type of Hpre with _ = (_, ?st) => set (s1 := st) in * end.
  assert (attached s1 lf lo
            (snd (Tank.drainMass
               (_fuelFlow (self s) * (PREBURNER_TAP_OFF * elapsed * _throttle (self s)))%J kf))
            (snd (Tank.drainMass
               (_oxidizerFlow (self s) * (PREBURNER_TAP_OFF * elapsed * _throttle (self s)))%J ko)))
    as Hat1 by (apply attached_after; [exact Hat | reflexivity | reflexivity]).
  pose proof (pump_feed_run elapsed s1 _ _ _ _ Hat1) as Hpump.
  cbv zeta in Hpump.
  rewrite (tick_stages elapsed s s1 _ _ _ Hpre Hpump).
  cbn [fuelSupply oxidizerSupply]. subst s1. cbn [self tanks].
  rewrite tanks_written_twice by exact Hne.
  reflexivity.
Qed.

(** X6.  What a tick leaves alone.  On an engine connected to its two
    tanks, [tick] returns normally or throws the [RangeError] of
    [#chamber]; the engine differs from the one before the call at most in
    its two combustion levels (tank references, throttle, igniters and
    nominal values are kept), the two tanks differ at most in their level,
    no other tank is touched, and when the [RangeError] is thrown the
    combustion level of the chamber is the one before the call. *)
Theorem tick_frame (elapsed : num) (s : state) (lf lo : loc) (kf ko : Tank.t) :
  attached s lf lo kf ko ->
  let s' := snd (tick elapsed s) in
  with_preburnerCombustion (_preburnerCombustion (self s))
    (with_chamberCombustion (_chamberCombustion (self s)) (self s')) = self s /\
  (forall l : loc, l <> lf -> l <> lo -> tanks s' !! l = tanks s !! l) /\
  (exists x y : num,
     tanks s' !! lf = Some (Tank.set_level x kf) /\
     tanks s' !! lo = Some (Tank.set_level y ko)) /\
  (fst (tick elapsed s) = Ok tt \/
   fst (tick elapsed s) = Throw RangeError /\
   _chamberCombustion (self s') = _chamberCombustion (self s)).
Proof.
  intros Hat s'. subst s'.
  pose proof (attached_distinct _ _ _ _ _ Hat) as Hne.
  rewrite (tick_explicit elapsed s lf lo kf ko Hat). cbv zeta.
  unfold chamber.
  match goal with |- context [if ?c then _ else _] => destruct c end.
  all: cbn; repeat split.
  all: try (destruct (self s); reflexivity).
  all: try (intros l Hlf Hlo; rewrite !lookup_insert_ne by auto; reflexivity).
  all: try (eexists _, _; split;
            [ rewrite lookup_insert_ne by auto; rewrite lookup_insert_eq; reflexivity
            | rewrite lookup_insert_eq; reflexivity ]).
  all: auto.
Qed.

Lemma tick_frame_witness :
  let s := Draw.engine true false (lit 1 2) in
  let s' := snd (tick (lit 1 24) s) in
  with_preburnerCombustion (_preburnerCombustion (self s))
    (with_chamberCombustion (_chamberCombustion (self s)) (self s')) = self s /\
  (forall l : loc, l <> Draw.fuel_loc -> l <> Draw.oxidizer_loc ->
     tanks s' !! l = tanks s !! l) /\
  (exists x y : num,
     tanks s' !! Draw.fuel_loc = Some (Tank.set_level x Draw.fuelTank) /\
     tanks s' !! Draw.oxidizer_loc = Some (Tank.set_level y Draw.oxidizerTank)) /\
  (fst (tick (lit 1 24) s) = Ok tt \/
   fst (tick (lit 1 24) s) = Throw RangeError /\
   _chamberCombustion (self s') = _chamberCombustion (self s)).
Proof.
  cbv zeta.
  apply (tick_frame (lit 1 24) (Draw.engine true false (lit 1 2))
           Draw.fuel_loc Draw.oxidizer_loc Draw.fuelTank Draw.oxidizerTank).
  unfold attached. repeat split; vm_compute; reflexivity.
Defined.

(* ================================================================== *)
(** * Engine: a tick on an engine in working order *)

















(* ================================================================== *)
(** * Engine: burning at the level of the throttle *)






Section Steady.
Variables (lf lo : loc) (ff ox thr dt : Qc).
Hypotheses (Hf0 : (0 < ff)%Qc) (Ho0 : (0 < ox)%Qc) (Hd0 : (0 < dt)%Qc)
  (Ht0 : (0 < thr)%Qc) (Ht1 : (thr <= 1)%Qc).

End Steady.






(* ================================================================== *)
(** * Engine: the tank setters, the specific impulse and [NaN] *)

(** X12.  The tank setters.  Called with a fuel tank and an oxidizer tank
    the two setters connect the engine to them and change nothing else;
    a tank of the other class is refused with a [RangeError] and the
    engine stays as it was; and after one of the two references is set
    back to [null], [tick] throws the error of the missing tank and takes
    nothing from the tanks. *)
Theorem tank_setters (elapsed : num) (s : state) (lf lo : loc) (kf ko : Tank.t) :
  tanks s !! lf = Some kf -> tanks s !! lo = Some ko ->
  class (Tank._compound kf) = Fuel -> class (Tank._compound ko) = Oxidizer ->
  exists s1 : state,
    (do _ <- set_fuelTank (Some lf); set_oxidizerTank (Some lo)) s = (Ok tt, s1) /\
    attached s1 lf lo kf ko /\
    s1 = mkState (with_oxidizerTank (Some lo) (with_fuelTank (Some lf) (self s)))
           (tanks s) /\
    set_fuelTank (Some lo) s = (Throw RangeError, s) /\
    set_oxidizerTank (Some lf) s = (Throw RangeError, s) /\
    (do _ <- set_fuelTank None; tick elapsed) s1
    = (Throw NoFuelTankConnectedError,
       mkState (with_fuelTank None (self s1)) (tanks s)) /\
    (do _ <- set_oxidizerTank None; tick elapsed) s1
    = (Throw NoOxidizerTankConnectedError,
       mkState (with_oxidizerTank None (self s1)) (tanks s)).
Proof.
  intros Hf Ho Hcf Hco.
  assert (forall l k, tanks s !! l = Some k ->
            on_tank l (fun k => (k, k)) s = (Ok k, s)) as Hpeek.
  { intros l k Hl. rewrite (on_tank_run l _ s k Hl). cbn.
    rewrite insert_id by exact Hl. destruct s; reflexivity. }
  unfold set_fuelTank, set_oxidizerTank, bind.
  rewrite (Hpeek lf kf Hf), (Hpeek lo ko Ho), Hcf, Hco.
  unfold update, modify, on_tank. cbn. rewrite Ho, Hco. cbn.
  rewrite insert_id by exact Ho.
  eexists. split; [reflexivity|]. unfold attached, throw. cbn.
  repeat split; assumption.
Qed.

Lemma tank_setters_witness :
  let s := mkState (Engine.new (int 7770000) (int 788) (int 2578)) Draw.tanks in
  exists s1 : state,
    (do _ <- set_fuelTank (Some Draw.fuel_loc);
     set_oxidizerTank (Some Draw.oxidizer_loc)) s = (Ok tt, s1) /\
    attached s1 Draw.fuel_loc Draw.oxidizer_loc Draw.fuelTank Draw.oxidizerTank /\
    s1 = mkState (with_oxidizerTank (Some Draw.oxidizer_loc)
                    (with_fuelTank (Some Draw.fuel_loc) (self s)))
           (tanks s) /\
    set_fuelTank (Some Draw.oxidizer_loc) s = (Throw RangeError, s) /\
    set_oxidizerTank (Some Draw.fuel_loc) s = (Throw RangeError, s) /\
    (do _ <- set_fuelTank None; tick (lit 1 24)) s1
    = (Throw NoFuelTankConnectedError,
       mkState (with_fuelTank None (self s1)) (tanks s)) /\
    (do _ <- set_oxidizerTank None; tick (lit 1 24)) s1
    = (Throw NoOxidizerTankConnectedError,
       mkState (with_oxidizerTank None (self s1)) (tanks s)).
Proof.
  cbv zeta.
  apply (tank_setters (lit 1 24)
           (mkState (Engine.new (int 7770000) (int 788) (int 2578)) Draw.tanks)
           Draw.fuel_loc Draw.oxidizer_loc Draw.fuelTank Draw.oxidizerTank);
    vm_compute; reflexivity.
Defined.



Lemma mul_nan_r (x : num) : (x * NaN)%J = NaN.
Proof. destruct x; reflexivity. Qed.

Lemma min_nan_r (x : num) : Num.min x NaN = NaN.
Proof. destruct x; reflexivity. Qed.

Lemma sub_nan_r (x : num) : (x - NaN)%J = NaN.
Proof. destruct x; reflexivity. Qed.

(** X14.  A tank whose level is [NaN].  Every call of a mutator on it
    returns [NaN] and leaves the level at [NaN], whatever the requests
    are, and the getters [level] and [massLevel] give [NaN] while [empty]
    is false: no sequence of fills and drains brings such a tank back to
    a number, and it never reports itself empty. *)
Theorem nan_level_stays (cs : list Tank.call) (k : Tank.t) :
  Tank._level k = NaN ->
  Forall (fun k' : Tank.t =>
            Tank._level k' = NaN /\ Tank.level k' = NaN /\
            Tank.empty k' = false) (k :: Tank.trace cs k) /\
  (forall c : Tank.call, fst (Tank.perform c k) = NaN).
Proof.
  intros Hk.
  assert (forall (c : Tank.call) (k0 : Tank.t), Tank._level k0 = NaN ->
            fst (Tank.perform c k0) = NaN /\
            Tank._level (snd (Tank.perform c k0)) = NaN) as Hstep.
  { intros c k0 H0. destruct c; cbn;
      unfold Tank.fillVolume, Tank.fillMass, Tank.drainVolume, Tank.drainMass;
      cbn; rewrite H0, ?sub_nan_r; cbn; split; reflexivity. }
  assert (forall k0 : Tank.t, Tank._level k0 = NaN ->
            Tank._level k0 = NaN /\ Tank.level k0 = NaN /\
            Tank.empty k0 = false) as Hget.
  { intros k0 H0. unfold Tank.level, Tank.empty. rewrite H0. repeat split. }
  split.
  - revert k Hk. induction cs as [|c cs IH]; intros k Hk.
    + constructor; [apply Hget, Hk | constructor].
    + constructor; [apply Hget, Hk|]. cbn [Tank.trace].
      apply IH. apply Hstep, Hk.
  - intros c. apply Hstep, Hk.
Qed.

Lemma nan_level_stays_witness :
  let k := snd (Tank.drainMass NaN Draw.fuelTank) in
  Forall (fun k' : Tank.t =>
            Tank._level k' = NaN /\ Tank.level k' = NaN /\
            Tank.empty k' = false)
    (k :: Tank.trace [Tank.FillMass (int 100); Tank.DrainVolume (int 5)] k) /\
  (forall c : Tank.call, fst (Tank.perform c k) = NaN).
Proof.
  cbv zeta.
  apply (nan_level_stays [Tank.FillMass (int 100); Tank.DrainVolume (int 5)]
           (snd (Tank.drainMass NaN Draw.fuelTank))).
  vm_compute. reflexivity.
Defined.

(** X15.  A throttle that is [NaN].  The throttle setter accepts [NaN]
    (both of its comparisons are false), and the next tick of an engine
    connected to its tanks returns normally, whatever the elapsed time
    and the nominal flows are, and leaves the level of both tanks at
    [NaN]; if the pre-burner is ignited or burning, the thrust level of
    the engine is [NaN] as well. *)
Theorem nan_throttle_is_not_reported (elapsed : num) (s : state)
    (lf lo : loc) (kf ko : Tank.t) :
  attached s lf lo kf ko ->
  exists s1 s2 : state,
    set_throttle NaN s = (Ok tt, s1) /\
    _throttle (self s1) = NaN /\
    tick elapsed s1 = (Ok tt, s2) /\
    tanks s2 !! lf = Some (Tank.set_level NaN kf) /\
    tanks s2 !! lo = Some (Tank.set_level NaN ko) /\
    (_preburnerIgnition (self s)
     || (_preburnerCombustion (self s) >? Num.zero)%J = true ->
     thrustLevel (self s2) = NaN).
Proof.
  intros Hat. pose proof (attached_distinct _ _ _ _ _ Hat) as Hne.
  exists (mkState (with_throttle NaN (self s)) (tanks s)).
  assert (attached (mkState (with_throttle NaN (self s)) (tanks s)) lf lo kf ko)
    as Hat1 by exact Hat.
  rewrite (tick_explicit elapsed _ lf lo kf ko Hat1). cbv zeta.
  cbn [self tanks _throttle with_throttle _fuelFlow _oxidizerFlow
       _preburnerIgnition _preburnerCombustion].
  rewrite !mul_nan_r. unfold Tank.drainMass.
  cbn [fst snd Tank._level Tank.set_level].
  rewrite !min_nan_r, !sub_nan_r. cbn [Num.min Num.sub Num.div].
  rewrite !set_level_twice.
  rewrite chamber_run by reflexivity.
  eexists. split; [reflexivity|]. split; [reflexivity|].
  split; [reflexivity|]. cbn [self tanks].
  split; [rewrite lookup_insert_ne by auto; apply lookup_insert_eq|].
  split; [apply lookup_insert_eq|].
  intros Hgate. rewrite Hgate. unfold thrustLevel. cbn.
  destruct (_ || _); reflexivity.
Qed.

Lemma nan_throttle_is_not_reported_witness :
  let s := Draw.engine true true Num.one in
  exists s1 s2 : state,
    set_throttle NaN s = (Ok tt, s1) /\
    _throttle (self s1) = NaN /\
    tick (lit 1 24) s1 = (Ok tt, s2) /\
    tanks s2 !! Draw.fuel_loc = Some (Tank.set_level NaN Draw.fuelTank) /\
    tanks s2 !! Draw.oxidizer_loc = Some (Tank.set_level NaN Draw.oxidizerTank) /\
    (_preburnerIgnition (self s)
     || (_preburnerCombustion (self s) >? Num.zero)%J = true ->
     thrustLevel (self s2) = NaN).
Proof.
  cbv zeta.
  apply (nan_throttle_is_not_reported (lit 1 24) (Draw.engine true true Num.one)
           Draw.fuel_loc Draw.oxidizer_loc Draw.fuelTank Draw.oxidizerTank).
  unfold attached. repeat split; vm_compute; reflexivity.
Defined.

(* ================================================================== *)
(** * Clock: any sequence of calls *)

(** X16.  The timer handle of a clock.  After any sequence of calls of
    [register], [start] and [stop], made by a caller that goes on after
    an exception, the handle of the clock is the one it had, if it had
    one, and otherwise the one of the first [start] of the sequence; the
    registered objects are the ones it had followed by the ones the
    sequence registers, in order; rate, interval and elapsed time are
    unchanged.  So a clock that is running stays running with the same
    handle: every [start] and every [stop] on it throws
    [IllegalStateError], and every [register] returns normally. *)
Theorem clock_keeps_first_handle {T : Type}
    (cs : list (Script.call T)) (c : Clock.t T) :
  let c' := snd (Script.run cs c) in
  Clock._id c' = match Clock._id c with
                 | Some handle => Some handle
                 | None => Script.first_handle cs
                 end /\
  Clock._temporals c' = Clock._temporals c ++ Script.temporals_of cs /\
  Clock._rate c' = Clock._rate c /\
  Clock._interval c' = Clock._interval c /\
  Clock._elapsed c' = Clock._elapsed c /\
  (Clock.isRunning c = true ->
   Clock.isRunning c' = true /\
   fst (Script.run cs c) = map Script.answer_when_running cs).
Proof.
  cbv zeta. revert c. induction cs as [|x cs IH]; intros c.
  - cbn. rewrite app_nil_r. destruct (Clock._id c); repeat split; auto.
  - cbn [Script.run].
    assert (Clock._id (snd (Script.perform x c))
            = match Clock._id c with
              | Some handle => Some handle
              | None => match x with
                        | Script.Start handle => Some handle
                        | _ => None
                        end
              end /\
            Clock._temporals (snd (Script.perform x c))
            = Clock._temporals c ++ Script.temporals_of [x] /\
            Clock._rate (snd (Script.perform x c)) = Clock._rate c /\
            Clock._interval (snd (Script.perform x c)) = Clock._interval c /\
            Clock._elapsed (snd (Script.perform x c)) = Clock._elapsed c /\
            (Clock.isRunning c = true ->
             fst (Script.perform x c) = Script.answer_when_running x))
      as (Hid1 & Hts1 & Hrate1 & Hint1 & Hel1 & Hrun1).
    { unfold Clock.isRunning.
      destruct c as [rate interval elapsed ts [h|]];
        destruct x as [temporal|handle|]; cbn; rewrite ?app_nil_r;
        repeat split; intros; first [reflexivity | discriminate]. }
    destruct (Script.perform x c) as [r c1].
    specialize (IH c1).
    destruct (Script.run cs c1) as [rs c2]. cbn [fst snd] in *.
    destruct IH as (Hid & Hts & Hrate & Hint & Hel & Hrun).
    rewrite Hid, Hts, Hrate, Hint, Hel, Hid1, Hts1, Hrate1, Hint1, Hel1.
    rewrite <- app_assoc.
    split; [|split; [|split; [|split; [|split]]]]; try reflexivity.
    + destruct (Clock._id c); [reflexivity|].
      destruct x; reflexivity.
    + destruct x; reflexivity.
    + intros Hc. rewrite (Hrun1 Hc).
      unfold Clock.isRunning in Hc, Hrun. rewrite Hid1 in Hrun.
      destruct (Clock._id c); [|discriminate Hc].
      destruct (Hrun eq_refl) as [Hrunning ->]. split; [exact Hrunning|].
      reflexivity.
Qed.

Lemma clock_keeps_first_handle_witness :
  let c : Clock.t loc := snd (Clock.start 7%positive (Clock.new (int 24))) in
  let cs := [Script.Stop; Script.Start 9%positive;
             Script.Register 1%positive; Script.Stop] in
  Clock.isRunning (snd (Script.run cs c)) = true /\
  fst (Script.run cs c) = map Script.answer_when_running cs.
Proof.
  cbv zeta.
  apply (clock_keeps_first_handle
           [Script.Stop; Script.Start 9%positive;
            Script.Register 1%positive; Script.Stop]
           (snd (Clock.start 7%positive (Clock.new (int 24))))).
  reflexivity.
Defined.

(* ================================================================== *)
(** * Engines on a clock *)








(* ================================================================== *)
(** * CelestialBody: gravitational acceleration *)



(* ================================================================== *)
(** * Angle: normalisation *)

Lemma Qc_sign_num (q : Qc) :
  ((0 <= q)%Qc <-> (0 <= Qnum q)%Z) /\ ((q < 0)%Qc <-> (Qnum q < 0)%Z).
Proof.
  unfold Qcle, Qclt. cbn [this Q2Qc]. rewrite !Qred_correct.
  destruct q as [[n d] Hc]. unfold Qle, Qlt. cbn. lia.
Qed.

Lemma trunc_nonneg (q : Qc) :
  (0 <= q)%Qc ->
  (Math.trunc q <= q)%Qc /\ (q < Math.trunc q + 1)%Qc /\ (0 <= Math.trunc q)%Qc.
Proof.
  intros Hq. apply Qc_sign_num in Hq.
  unfold Math.trunc, dec, Qcle, Qclt.
  cbn [this Q2Qc Qcplus]. rewrite ?Qred_correct.
  destruct q as [[n d] Hc]. cbn [this Qnum Qden] in *.
  unfold Qle, Qlt. cbn.
  rewrite Z.quot_div_nonneg by lia.
  pose proof (Z.div_mod n (Zpos d) ltac:(lia)) as Hdm.
  pose proof (Z.mod_pos_bound n (Zpos d) ltac:(lia)) as Hmod.
  pose proof (Z.div_pos n (Zpos d) ltac:(lia) ltac:(lia)).
  nia.
Qed.

Lemma trunc_neg (q : Qc) :
  (q < 0)%Qc ->
  (q <= Math.trunc q)%Qc /\ (Math.trunc q < q + 1)%Qc /\ (Math.trunc q <= 0)%Qc.
Proof.
  intros Hq. apply Qc_sign_num in Hq.
  unfold Math.trunc, dec, Qcle, Qclt.
  cbn [this Q2Qc Qcplus]. rewrite ?Qred_correct.
  destruct q as [[n d] Hc]. cbn [this Qnum Qden] in *.
  unfold Qle, Qlt. cbn.
  replace n with (- (- n))%Z by lia.
  rewrite Z.quot_opp_l by lia.
  rewrite Z.quot_div_nonneg by lia.
  pose proof (Z.div_mod (- n) (Zpos d) ltac:(lia)) as Hdm.
  pose proof (Z.mod_pos_bound (- n) (Zpos d) ltac:(lia)) as Hmod.
  pose proof (Z.div_pos (- n) (Zpos d) ltac:(lia) ltac:(lia)).
  nia.
Qed.

Lemma trunc_small (q : Qc) : (0 <= q)%Qc -> (q < 1)%Qc -> Math.trunc q = 0%Qc.
Proof.
  intros Hq Hq1. apply Qc_sign_num in Hq.
  unfold Qclt in Hq1. cbn [this Q2Qc] in Hq1. rewrite Qred_correct in Hq1.
  unfold Math.trunc, dec.
  destruct q as [[n d] Hc]. cbn [this Qnum Qden] in *.
  unfold Qlt in Hq1. cbn in Hq1.
  rewrite Z.quot_small by lia. apply Qc_is_canon. reflexivity.
Qed.


(** The two constants of [Angle] as fractions. *)
Lemma angle_constants :
  exists tau dr : Qc,
    Angle.DOUBLE_PI = Fin tau /\ Angle.DEGREE_RADIANS = Fin dr /\
    (0 < dr)%Qc /\ (tau = dec 360 1 * dr)%Qc.
Proof.
  eexists _, _. split; [reflexivity|]. split; [reflexivity|].
  split; [reflexivity|]. apply Qc_is_canon. reflexivity.
Qed.

(** The remainder of a division by a positive number. *)
Lemma rem_positive (r tau : Qc) :
  (0 < tau)%Qc ->
  exists v : Qc,
    Math.rem (Fin r) (Fin tau) = Fin v /\
    Fin r = Fin (v + Math.trunc (r / tau) * tau) /\
    ((0 <= r)%Qc -> (0 <= v)%Qc /\ (v < tau)%Qc) /\
    ((r < 0)%Qc -> (- tau < v)%Qc /\ (v <= 0)%Qc) /\
    ((0 <= r)%Qc -> (r < tau)%Qc -> v = r).
Proof.
  intros Htau. exists (r - tau * Math.trunc (r / tau))%Qc.
  assert (tau <> 0%Qc) as Hne by q_arith.
  assert (r / tau * tau = r)%Qc as Hq by (field; exact Hne).
  cbn. assert (q_eq tau 0 = false) as -> by q_arith.
  split; [reflexivity|]. split; [f_equal; ring|].
  remember (r / tau)%Qc as q eqn:Eq. clear Eq.
  split; [|split].
  - intros Hr. assert (0 <= q)%Qc as Hq0.
    { destruct (Qc_sign q) as [Hs|[Hs|Hs]]; [exfalso|..]; q_arith. }
    destruct (trunc_nonneg q Hq0) as (Ht1 & Ht2 & Ht3).
    remember (Math.trunc q) as t eqn:Et. clear Et.
    split; q_arith.
  - intros Hr. assert (q < 0)%Qc as Hq0.
    { destruct (Qc_sign q) as [Hs|[Hs|Hs]]; [|exfalso..]; q_arith. }
    destruct (trunc_neg q Hq0) as (Ht1 & Ht2 & Ht3).
    remember (Math.trunc q) as t eqn:Et. clear Et.
    split; q_arith.
  - intros Hr Hr1. assert (0 <= q)%Qc as Hq0.
    { destruct (Qc_sign q) as [Hs|[Hs|Hs]]; [exfalso|..]; q_arith. }
    assert (q < 1)%Qc as Hq1.
    { destruct (Qc_dec q 1) as [[Hs|Hs]|Hs]; [exact Hs|exfalso..]; q_arith. }
    rewrite (trunc_small q Hq0 Hq1). ring.
Qed.

(** X20.  An angle that is not negative.  For a finite [radians >= 0],
    [new Angle(radians).radians] lies in [0, 2 pi), differs from
    [radians] by a whole number of turns, is [radians] itself when
    [radians] is below 2 pi, and normalising it again changes nothing. *)
Theorem angle_of_nonneg (radians : num) :
  Num.nonneg radians = true ->
  let a := Angle.new radians in
  (Num.zero <=? Angle.radians a)%J = true /\
  (Angle.radians a <? Angle.DOUBLE_PI)%J = true /\
  (exists k : Z,
     (0 <= k)%Z /\
     radians = (Angle.radians a + int k * Angle.DOUBLE_PI)%J) /\
  ((radians <? Angle.DOUBLE_PI)%J = true -> Angle.radians a = radians) /\
  Angle.new (Angle.radians a) = a.
Proof.
  intros Hr a. subst a. apply nonneg_fin in Hr as (r & -> & Hr).
  destruct angle_constants as (tau & dr & Htau & _ & Hdr & Hturn).
  assert (0 < tau)%Qc as Htau0 by q_arith.
  unfold Angle.new, Angle.radians. cbv zeta. cbn [Angle._value].
  rewrite Htau.
  destruct (rem_positive r tau Htau0) as (v & -> & Hv & Hpos & _ & Hsmall).
  destruct (Hpos Hr) as [Hv0 Hv1].
  cbn [Num.lt Num.le Num.zero].
  assert (q_lt v 0 = false) as -> by q_arith.
  split; [cbn; q_arith|]. split; [cbn; q_arith|]. split; [|split].
  - assert (0 <= r / tau)%Qc as Hq0.
    { assert (r / tau * tau = r)%Qc as Hq by (field; q_arith).
      remember (r / tau)%Qc as q eqn:Eq. clear Eq.
      destruct (Qc_sign q) as [Hs|[Hs|Hs]]; [exfalso|..]; q_arith. }
    exists (Z.quot (Qnum (r / tau)%Qc) (Zpos (Qden (r / tau)%Qc))).
    split.
    + apply Z.quot_pos; [apply Qc_sign_num, Hq0 | lia].
    + unfold int. cbn [Num.mul Num.add].
      change (dec (Z.quot (Qnum (r / tau)%Qc) (Zpos (Qden (r / tau)%Qc))) 1)
        with (Math.trunc (r / tau)).
      exact Hv.
  - intros Hlt. f_equal. apply Hsmall; [exact Hr | q_arith].
  - destruct (rem_positive v tau Htau0) as (v' & -> & _ & _ & _ & Hsmall').
    rewrite (Hsmall' Hv0 Hv1). cbn [Num.lt Num.zero].
    assert (q_lt v 0 = false) as -> by q_arith. reflexivity.
Qed.

Lemma angle_of_nonneg_witness :
  let a := Angle.new (int 7) in
  (Num.zero <=? Angle.radians a)%J = true /\
  (Angle.radians a <? Angle.DOUBLE_PI)%J = true /\
  (exists k : Z,
     (0 <= k)%Z /\
     int 7 = (Angle.radians a + int k * Angle.DOUBLE_PI)%J) /\
  ((int 7 <? Angle.DOUBLE_PI)%J = true -> Angle.radians a = int 7) /\
  Angle.new (Angle.radians a) = a.
Proof.
  cbv zeta. apply (angle_of_nonneg (int 7)). reflexivity.
Defined.





(* ================================================================== *)
(** * Orbit: apsides, semi-major axis and eccentricity *)




Section Orbits.
Variable sqrt : num -> num.



End Orbits.



(* ================================================================== *)
(** * Engine: the getters of a constructed engine agree *)



(* ================================================================== *)
(** * Engine: without the pre-burner igniter *)


